(** * sidekick: the [init] command (cmd/init.go)

    A shallow embedding of [initCmd.Run], [initConfig] and the parts of the
    Go standard library they rely on, followed by the properties of the
    provisioning run that the specification states. *)

From Stdlib Require Import ZArith.
From stdpp Require Import base option list strings gmap fin_maps.

Local Open Scope string_scope.
Local Open Scope list_scope.

(** ** Go's [strings] package and slice expressions

    Strings are byte strings; [ascii] stands for a byte. *)

Module GoStrings.

(** [strings.HasPrefix(s, prefix)]:
    [len(s) >= len(prefix) && s[:len(prefix)] == prefix]. *)
Fixpoint HasPrefix (s prefix : string) : bool :=
  match prefix, s with
  | EmptyString, _ => true
  | String _ _, EmptyString => false
  | String p prefix', String c s' =>
      if Ascii.eqb c p then HasPrefix s' prefix' else false
  end.

(** [strings.Split(s, sep)] for a non-empty [sep]: the substrings between
    the occurrences of [sep], scanning from the left, occurrences that do
    not overlap. [skip] counts the bytes of a separator still to be passed
    over. *)
Fixpoint split_from (sep : string) (skip : nat) (s : string) : list string :=
  match s with
  | EmptyString => [EmptyString]
  | String c s' =>
      match skip with
      | S k => split_from sep k s'
      | O =>
          if HasPrefix s sep
          then EmptyString :: split_from sep (Nat.pred (String.length sep)) s'
          else match split_from sep O s' with
               | tok :: toks => String c tok :: toks
               | [] => [String c EmptyString]
               end
      end
  end.

(** With an empty separator Go splits after each UTF-8 sequence; on byte
    strings that is one string per byte. *)
Fixpoint explode (s : string) : list string :=
  match s with
  | EmptyString => []
  | String c s' => String c EmptyString :: explode s'
  end.

Definition Split (s sep : string) : list string :=
  match sep with
  | EmptyString => explode s
  | String _ _ => split_from sep O s
  end.

End GoStrings.

Export GoStrings.

(** ** Errors, panics and the ways a Go process ends *)

(** An [error] value is kept as its message. *)
Definition error := string.

(** The value carried by a panic: an [error] handed to [panic], or one of
    the run-time errors of the slice and index expressions. *)
Inductive PanicValue : Type :=
| PanicErr (e : error)
| SliceBoundsOutOfRange (high capacity : nat)
    (* slice bounds out of range [:high] with capacity capacity *)
| SliceBoundsInverted (low high : nat)
    (* slice bounds out of range [low:high] *)
| IndexOutOfRange (i len : nat).
    (* index out of range [i] with length len *)

Inductive Outcome (A : Type) : Type :=
| Returns (a : A)          (* control reaches the end of the function *)
| Exits (code : Z)         (* os.Exit(code) *)
| Panics (v : PanicValue). (* panic, never recovered in this program *)

Arguments Returns {A} a.
Arguments Exits {A} code.
Arguments Panics {A} v.

(** The status the operating system sees: a Go program that returns from
    [main] ends with 0, one that panics without recovery ends with 2. *)
Definition exit_status {A} (o : Outcome A) : Z :=
  match o with
  | Returns _ => 0%Z
  | Exits code => code
  | Panics _ => 2%Z
  end.

(** The slice expression [a[low:high]] on a slice whose capacity equals its
    length, as the result of [strings.Split] is: the bound [high] is checked
    against the capacity first, then [low] against [high]. *)
Definition slice {A} (a : list A) (low high : nat) : Outcome (list A) :=
  if decide (length a < high)%nat then Panics (SliceBoundsOutOfRange high (length a))
  else if decide (high < low)%nat then Panics (SliceBoundsInverted low high)
  else Returns (take (high - low) (drop low a)).

(** The index expression [a[i]]. *)
Definition index {A} (a : list A) (i : nat) : Outcome A :=
  match a !! i with
  | Some x => Returns x
  | None => Panics (IndexOutOfRange i (length a))
  end.

(** ** The collaborators of [initCmd]

    Packages [utils], [render], [viper], [pterm] and [cobra] are not part of
    the sources at hand. What the command needs from them is kept symbolic:
    the stage values are named, the sessions are identified by host and
    account, and every answer of the outside world is read from an [Env]. *)

(** [utils.UsersetupStage], [utils.SetupStage], [utils.DockerStage] and the
    value of [utils.GetTraefikStage(certEmail)]. *)
Inductive Stage : Type :=
| UsersetupStage
| SetupStage
| DockerStage
| TraefikStage (certEmail : string).

Definition GetTraefikStage (certEmail : string) : Stage := TraefikStage certEmail.

(** A text handed to a printer: a literal of [init.go], or one of the two
    message fields of a stage. *)
Inductive Message : Type :=
| Text (s : string)
| SpinnerSuccessMessage (st : Stage)
| SpinnerFailMessage (st : Stage).

(** The six progress spinners of [initCmd]. *)
Inductive Spinner : Type :=
| rootLoginSpinner
| stage0Spinner
| sidekickLoginSpinner
| stage1Spinner
| stage2Spinner
| stage3Spinner.

(** The [*ssh.Client] that [utils.Login(server, user)] returns. *)
Record Client : Type := { client_host : string; client_user : string }.

(** What a run does that the outside world can observe, in order. *)
Inductive Event : Type :=
| EvPrintln (text : string)
| EvPrompt (defaultText answer : string)
| EvError (text : string)                     (* pterm.Error *)
| EvInfo (text : string)                      (* pterm.Info *)
| EvFatal (text : string)                     (* log.Fatalf, cobra.CheckErr *)
| EvSpinnerStart (sp : Spinner) (text : string)
| EvSpinnerSuccess (sp : Spinner) (m : Message)
| EvSpinnerFail (sp : Spinner) (m : Message)
| EvLogin (server user : string) (err : option error)
| EvRunStage (c : Client) (st : Stage) (err : option error)
| EvRunCommand (c : Client) (cmd : string) (res : error + string)
| EvWriteConfig (err : option error)
| EvMkdirAll (path : string) (err : option error)
| EvCreate (path : string) (err : option error).

Global Instance Stage_eq_dec : EqDecision Stage.
Proof. solve_decision. Defined.
Global Instance Message_eq_dec : EqDecision Message.
Proof. solve_decision. Defined.
Global Instance Spinner_eq_dec : EqDecision Spinner.
Proof. solve_decision. Defined.
Global Instance Client_eq_dec : EqDecision Client.
Proof. solve_decision. Defined.
Global Instance Event_eq_dec : EqDecision Event.
Proof. solve_decision. Defined.

(** The answers of the outside world during one invocation. *)
Record Env : Type := {
  (* os *)
  env_UserHomeDir : string * option error;
  env_MkdirAll : string -> option error;
  env_Create : string -> option error;
  (* the operator at the two interactive text inputs *)
  env_serverTextInput : string;
  env_certEmailTextInput : string;
  (* the remote host *)
  env_Login : string -> string -> option error;
  env_RunStage : Client -> Stage -> option error;
  env_RunCommand : Client -> string -> error + string;
  (* the write of the configuration file *)
  env_WriteConfig : option error
}.

(** The state a run reads and writes: viper's registry of settings (flag
    values and stored settings as [viper.GetString] resolves them, then the
    values given to [viper.Set]), and the contents of the configuration file
    [$HOME/.config/sidekick/default.yaml], [None] while there is no file. *)
Record Store : Type := {
  viper : gmap string string;
  configFile : option (gmap string string)
}.

(** ** The monad of the command: state, log of events, exit and panic *)

Definition M (A : Type) : Type := Store -> Outcome A * Store * list Event.

Global Instance M_ret : MRet M := fun A a s => (Returns a, s, []).

Global Instance M_bind : MBind M := fun A B k m s =>
  match m s with
  | (Returns a, s1, l1) =>
      match k a s1 with
      | (o, s2, l2) => (o, s2, l1 ++ l2)
      end
  | (Exits code, s1, l1) => (Exits code, s1, l1)
  | (Panics v, s1, l1) => (Panics v, s1, l1)
  end.

Definition outcome {A} (r : Outcome A * Store * list Event) : Outcome A := r.1.1.
Definition final {A} (r : Outcome A * Store * list Event) : Store := r.1.2.
Definition log {A} (r : Outcome A * Store * list Event) : list Event := r.2.

Definition emit (e : Event) : M unit := fun s => (Returns tt, s, [e]).
Definition lift {A} (o : Outcome A) : M A := fun s => (o, s, []).
Definition panic {A} (v : PanicValue) : M A := lift (Panics v).
Definition os_Exit {A} (code : Z) : M A := lift (Exits code).

(** [log.Fatalf]: print, then [os.Exit(1)]. *)
Definition log_Fatalf (text : string) : M unit :=
  emit (EvFatal text);; os_Exit 1.

(** [cobra.CheckErr]: nothing on [nil]; otherwise print and [os.Exit(1)]. *)
Definition cobra_CheckErr (err : option error) : M unit :=
  match err with
  | None => mret tt
  | Some e => emit (EvFatal ("Error: " +:+ e));; os_Exit 1
  end.

(** [viper.GetString]: the value of the key, the empty string when there is
    none. (viper folds the case of keys, in [Set] and in [GetString] alike;
    the keys are kept here as [init.go] writes them.) *)
Definition GetString (settings : gmap string string) (key : string) : string :=
  default EmptyString (settings !! key).

Definition viper_GetString (key : string) : M string :=
  fun s => (Returns (GetString (viper s) key), s, []).

Definition viper_Set (key value : string) : M unit :=
  fun s => (Returns tt,
            {| viper := <[key := value]> (viper s); configFile := configFile s |},
            []).

(** [viper.WriteConfig]: on success the file holds all current settings. *)
Definition viper_WriteConfig (env : Env) : M (option error) :=
  fun s =>
    match env_WriteConfig env with
    | None => (Returns None,
               {| viper := viper s; configFile := Some (viper s) |},
               [EvWriteConfig None])
    | Some e => (Returns (Some e), s, [EvWriteConfig (Some e)])
    end.

Definition os_UserHomeDir (env : Env) : M (string * option error) :=
  mret (env_UserHomeDir env).

Definition os_MkdirAll (env : Env) (path : string) : M (option error) :=
  emit (EvMkdirAll path (env_MkdirAll env path));; mret (env_MkdirAll env path).

(** [os.Create] creates the file, or truncates the one that is there. The
    one file the store follows is the configuration file, the file that
    [initConfig] creates. *)
Definition os_Create (env : Env) (path : string) : M (option error) :=
  fun s =>
    match env_Create env path with
    | None => (Returns None, {| viper := viper s; configFile := Some ∅ |},
               [EvCreate path None])
    | Some e => (Returns (Some e), s, [EvCreate path (Some e)])
    end.

(** [Show()] of an interactive text input; its error result is dropped by
    [initCmd]. *)
Definition TextInput_Show (defaultText answer : string) : M string :=
  emit (EvPrompt defaultText answer);; mret answer.

Definition utils_Login (env : Env) (server user : string) : M (error + Client) :=
  emit (EvLogin server user (env_Login env server user));;
  mret (match env_Login env server user with
        | Some e => inl e
        | None => inr {| client_host := server; client_user := user |}
        end).

Definition utils_RunStage (env : Env) (c : Client) (st : Stage) : M (option error) :=
  emit (EvRunStage c st (env_RunStage env c st));; mret (env_RunStage env c st).

(** [utils.RunCommand] returns a channel and an error; the channel delivers
    the captured output. *)
Definition utils_RunCommand (env : Env) (c : Client) (cmd : string) : M (error + string) :=
  emit (EvRunCommand c cmd (env_RunCommand env c cmd));; mret (env_RunCommand env c cmd).

(** ** [utils.IsValidIPAddress] *)

(** Modelled from the spec: the value of a decimal digit, for
    [IsValidIPAddress] below. *)
Definition digit (c : Ascii.ascii) : option nat :=
  let n := Ascii.nat_of_ascii c in
  if decide (48 ≤ n ≤ 57)%nat then Some (n - 48) else None.

(** Modelled from the spec: the number a string of decimal digits stands
    for, for [IsValidIPAddress] below. *)
Fixpoint decimal (acc : nat) (s : string) : option nat :=
  match s with
  | EmptyString => Some acc
  | String c s' =>
      match digit c with
      | Some d => decimal (10 * acc + d) s'
      | None => None
      end
  end.

(** Modelled from the spec: one field of a dotted address, one to three
    decimal digits with a value of at most 255, for [IsValidIPAddress]
    below. *)
Definition octet (s : string) : bool :=
  match s with
  | EmptyString => false
  | String _ _ =>
      if decide (String.length s ≤ 3)%nat
      then match decimal 0 s with
           | Some n => bool_decide (n ≤ 255)%nat
           | None => false
           end
      else false
  end.

(** Modelled from the spec: [utils.IsValidIPAddress], of package [utils],
    which is not among the sources. The specification asks for "a
    syntactically valid IPv4 address": [192.168.1.1] is accepted;
    [999.1.1.1], [localhost] and the empty string are rejected. Here: four
    fields separated by dots, each an [octet]. *)
Definition IsValidIPAddress (ip : string) : bool :=
  match Split ip "." with
  | [a; b; c; d] => octet a && octet b && octet c && octet d
  | _ => false
  end.

(** ** [initCmd.Run] and [initConfig] *)

Definition marker : string := "Public key".

(** The line feed that ends the two [log.Fatalf] formats of [initConfig]. *)
Definition LF : string := String (Ascii.ascii_of_nat 10) EmptyString.

Definition keygenCommand : string :=
  "mkdir -p $HOME/.config/sops/age/ && age-keygen -o $HOME/.config/sops/age/keys.txt 2>&1 ".

(** Lines 116-121, the body of the receive on the channel of the key
    generation command:
<<
    if strings.HasPrefix(output, "Public key") {
        publicKey := strings.Split(output, " ")[2:3]
        viper.Set("publicKey", publicKey[0])
    }
>> *)
Definition onKeygenOutput (output : string) : M unit :=
  if HasPrefix output marker then
    publicKey ← lift (slice (Split output " ") 2 3);
    key ← lift (index publicKey 0);
    viper_Set "publicKey" key
  else mret tt.

(** [RunStage] under a spinner: on an error the spinner fails with the
    stage's message and the command panics with the error; otherwise the
    spinner succeeds. In [initCmd] the success of [stage1Spinner] comes
    later, after the key generation, so the two halves are kept apart. *)
Definition failWith {A} (sp : Spinner) (m : Message) (e : error) : M A :=
  emit (EvSpinnerFail sp m);; panic (PanicErr e).

Definition readyMessage : string :=
  "Your VPS is ready! You can now run Sidekick launch in your app folder".

(** The function under [Run:] of [initCmd], lines 37-148. Left out, having
    no part in what follows: the banner of [render.RenderSidekickBig], the
    empty lines of [pterm.Println()], the animation frames assigned to the
    [Sequence] field of the spinners, and [multi.Start] and [multi.Stop]. The
    receive [select { case output := <-ch: ... }] has a single case: it
    waits for the output of the command and then runs [onKeygenOutput]. *)
Definition initCmd_Run (env : Env) : M unit :=
  emit (EvPrintln "Welcome to Sidekick. We need to collect some details from you first");;
  server ← viper_GetString "serverAddress";
  certEmail ← viper_GetString "certEmail";
  server ← (if decide (server = EmptyString) then
              server ← TextInput_Show "Please enter the IPv4 Address of your VPS"
                            (env_serverTextInput env);
              (if negb (IsValidIPAddress server) then
                 emit (EvError ("You entered an incorrect IP Address - " +:+ server));;
                 os_Exit 0
               else mret tt);;
              mret server
            else mret server);
  certEmail ← (if decide (certEmail = EmptyString) then
                 certEmail ← TextInput_Show "Please enter an email for use with TLS certs"
                                  (env_certEmailTextInput env);
                 (if decide (certEmail = EmptyString) then
                    emit (EvError "An email is needed before you proceed");;
                    os_Exit 0
                  else mret tt);;
                 mret certEmail
               else mret certEmail);
  viper_Set "serverAddress" server;;
  viper_Set "certEmail" certEmail;;
  emit (EvPrintln "Sidekick booting up! 🚀");;
  (* init login with checking handshake *)
  rootSshClient ← (r ← utils_Login env server "root";
                   match r with
                   | inl err =>
                       log_Fatalf ("Unable to login using 'root' user: " +:+ err);;
                       os_Exit 1
                   | inr c => mret c
                   end);
  emit (EvSpinnerStart rootLoginSpinner "Logging in with root");;
  emit (EvSpinnerStart stage0Spinner "Adding user Sidekick");;
  emit (EvSpinnerStart sidekickLoginSpinner "Logging into with sidekick user");;
  emit (EvSpinnerStart stage1Spinner "Setting up VPS");;
  emit (EvSpinnerStart stage2Spinner "Setting up Docker");;
  emit (EvSpinnerStart stage3Spinner "Setting up Traefik");;
  emit (EvSpinnerSuccess rootLoginSpinner (Text "Logged in successfully!"));;
  err ← utils_RunStage env rootSshClient UsersetupStage;
  (match err with
   | Some e => failWith stage0Spinner (SpinnerFailMessage UsersetupStage) e
   | None => mret tt
   end);;
  emit (EvSpinnerSuccess stage0Spinner (SpinnerSuccessMessage UsersetupStage));;
  sidekickSshClient ← (r ← utils_Login env server "sidekick";
                       match r with
                       | inl err =>
                           failWith sidekickLoginSpinner
                             (Text "Something went wrong logging in to your VPS") err
                       | inr c => mret c
                       end);
  emit (EvSpinnerSuccess sidekickLoginSpinner (Text "Logged in successfully with new user!"));;
  err ← utils_RunStage env sidekickSshClient SetupStage;
  (match err with
   | Some e => failWith stage1Spinner (SpinnerFailMessage SetupStage) e
   | None => mret tt
   end);;
  r ← utils_RunCommand env sidekickSshClient keygenCommand;
  output ← (match r with
            | inl sessionErr =>
                failWith stage1Spinner (SpinnerFailMessage SetupStage) sessionErr
            | inr output => mret output
            end);
  onKeygenOutput output;;
  emit (EvSpinnerSuccess stage1Spinner (SpinnerSuccessMessage SetupStage));;
  err ← utils_RunStage env sidekickSshClient DockerStage;
  (match err with
   | Some e => failWith stage2Spinner (SpinnerFailMessage DockerStage) e
   | None => mret tt
   end);;
  emit (EvSpinnerSuccess stage2Spinner (SpinnerSuccessMessage DockerStage));;
  let traefikStage := GetTraefikStage certEmail in
  err ← utils_RunStage env sidekickSshClient traefikStage;
  (match err with
   | Some e => failWith stage3Spinner (SpinnerFailMessage traefikStage) e
   | None => mret tt
   end);;
  emit (EvSpinnerSuccess stage3Spinner (SpinnerSuccessMessage traefikStage));;
  err ← viper_WriteConfig env;
  (match err with
   | Some e => panic (PanicErr e)
   | None => mret tt
   end);;
  emit (EvInfo readyMessage).

Definition initConfig (env : Env) : M unit :=
  '(home, err) ← os_UserHomeDir env;
  cobra_CheckErr err;;
  let configPath := home +:+ "/.config/sidekick" in
  let configFile := configPath +:+ "/default.yaml" in
  makeDirErr ← os_MkdirAll env configPath;
  (match makeDirErr with
   | Some e => log_Fatalf ("Error creating directory: " +:+ e +:+ LF);; os_Exit 1
   | None => mret tt
   end);;
  (* viper.AddConfigPath, SetConfigType, SetConfigName: the file that
     [viper.WriteConfig] writes is [configFile] *)
  fileCreateErr ← os_Create env configFile;
  (match fileCreateErr with
   | Some e => log_Fatalf ("Error creating configFile: " +:+ e +:+ LF);; os_Exit 1
   | None => mret tt
   end).

(** [init] registers [initConfig] with [cobra.OnInitialize]: cobra calls it
    before the command's [Run]. *)
Definition Execute (env : Env) : M unit :=
  initConfig env;; initCmd_Run env.

(** ** The phases of a run, read off its log *)

Inductive Phase : Type :=
| BootstrapLogin      (* utils.Login(server, "root") *)
| AccountCreation     (* utils.UsersetupStage *)
| OperationalLogin    (* utils.Login(server, "sidekick") *)
| BaseSetup           (* utils.SetupStage *)
| KeyGeneration       (* the age-keygen command *)
| ContainerRuntime    (* utils.DockerStage *)
| ReverseProxy        (* the stage of utils.GetTraefikStage *)
| Persistence.        (* viper.WriteConfig *)

Global Instance Phase_eq_dec : EqDecision Phase.
Proof. solve_decision. Defined.

Definition no_error (err : option error) : bool :=
  match err with None => true | Some _ => false end.

(** The phase an event belongs to, with [true] when that call reported no
    error. Prints, prompts and the calls of [initConfig] belong to none. *)
Definition phase_of (e : Event) : option (Phase * bool) :=
  match e with
  | EvLogin _ user err =>
      if String.eqb user "root" then Some (BootstrapLogin, no_error err)
      else if String.eqb user "sidekick" then Some (OperationalLogin, no_error err)
      else None
  | EvRunStage _ UsersetupStage err => Some (AccountCreation, no_error err)
  | EvRunStage _ SetupStage err => Some (BaseSetup, no_error err)
  | EvRunStage _ DockerStage err => Some (ContainerRuntime, no_error err)
  | EvRunStage _ (TraefikStage _) err => Some (ReverseProxy, no_error err)
  | EvRunCommand _ _ res =>
      Some (KeyGeneration, match res with inr _ => true | inl _ => false end)
  | EvWriteConfig err => Some (Persistence, no_error err)
  | _ => None
  end.

Definition ran (ph : Phase) (e : Event) : Prop := fst <$> phase_of e = Some ph.
Definition succeeded (ph : Phase) (e : Event) : Prop := phase_of e = Some (ph, true).
Definition failed (e : Event) : Prop := snd <$> phase_of e = Some false.
Definition is_phase (e : Event) : Prop := is_Some (phase_of e).

(** The session a stage or a command is executed over. *)
Definition session_of (e : Event) : option Client :=
  match e with
  | EvRunStage c _ _ => Some c
  | EvRunCommand c _ _ => Some c
  | _ => None
  end.

Definition over_account (user : string) (e : Event) : Prop :=
  client_user <$> session_of e = Some user.

(** The event belongs to a phase that comes after the operational login. *)
Definition after_login (e : Event) : Prop :=
  ran BaseSetup e ∨ ran KeyGeneration e ∨ ran ContainerRuntime e
  ∨ ran ReverseProxy e ∨ ran Persistence e.

(** The operational login was attempted and rejected. *)
Definition login_rejected (e : Event) : Prop :=
  phase_of e = Some (OperationalLogin, false).

(** Every phase of the run has succeeded. *)
Definition all_succeeded (tr : list Event) : Prop :=
  ∀ ph, Exists (succeeded ph) tr.

(** The output captured from the key generation command, when the log has
    one. *)
Definition captured (e : Event) : option string :=
  match e with
  | EvRunCommand _ _ (inr output) => Some output
  | _ => None
  end.

Definition captured_output (tr : list Event) : option string := head (omap captured tr).

(** The settings hold a non-empty value under [key]. *)
Definition holds (settings : gmap string string) (key : string) : Prop :=
  GetString settings key ≠ EmptyString.

Global Instance ran_dec ph e : Decision (ran ph e).
Proof. unfold ran. apply _. Defined.
Global Instance succeeded_dec ph e : Decision (succeeded ph e).
Proof. unfold succeeded. apply _. Defined.
Global Instance failed_dec e : Decision (failed e).
Proof. unfold failed. apply _. Defined.
Global Instance is_phase_dec e : Decision (is_phase e).
Proof. unfold is_phase. apply _. Defined.
Global Instance over_account_dec user e : Decision (over_account user e).
Proof. unfold over_account. apply _. Defined.
Global Instance after_login_dec e : Decision (after_login e).
Proof. unfold after_login. apply _. Defined.
Global Instance login_rejected_dec e : Decision (login_rejected e).
Proof. unfold login_rejected. apply _. Defined.

(** ** Order properties of logs *)

Section TraceOrder.
Context {E : Type}.
Implicit Types (P Q : E -> Prop) (tr pre post : list E).

(** Every event that satisfies [Q] has an earlier one that satisfies [P]. *)
Definition preceded P Q tr : Prop :=
  ∀ pre e post, tr = pre ++ e :: post → Q e → Exists P pre.

(** No event that satisfies [Q] comes after one that satisfies [P]. *)
Definition never_after P Q tr : Prop :=
  ∀ pre e post, tr = pre ++ e :: post → P e → Forall (fun e' => ¬ Q e') post.

(** The two as checks that run along the log; [seen] tells whether an event
    satisfying [p] has been passed. *)
Fixpoint precededb (p q : E -> bool) (seen : bool) tr : bool :=
  match tr with
  | [] => true
  | e :: tr' => implb (q e) seen && precededb p q (seen || p e) tr'
  end.

Fixpoint never_afterb (p q : E -> bool) (seen : bool) tr : bool :=
  match tr with
  | [] => true
  | e :: tr' => implb seen (negb (q e)) && never_afterb p q (seen || p e) tr'
  end.

End TraceOrder.

(** ** Scenarios

    Concrete stores and environments, on which the theorems below are
    instantiated. *)

Module Scenario.

(** No flag given and nothing stored; no configuration file yet. *)
Definition fresh : Store := {| viper := ∅; configFile := None |}.

(** The address given with the flag [--server], or stored earlier. *)
Definition presupplied (server : string) : Store :=
  {| viper := {[ "serverAddress" := server ]}; configFile := None |}.

(** A configuration file written by an earlier run. *)
Definition configured : Store :=
  {| viper := ∅; configFile := Some {[ "serverAddress" := "192.168.1.1" ]} |}.

(** Every collaborator succeeds; the operator types a valid address and an
    email; the key generation prints [output]. *)
Definition cooperative (output : string) : Env :=
  {| env_UserHomeDir := ("/home/op", None);
     env_MkdirAll := fun _ => None;
     env_Create := fun _ => None;
     env_serverTextInput := "192.168.1.1";
     env_certEmailTextInput := "ops@example.com";
     env_Login := fun _ _ => None;
     env_RunStage := fun _ _ => None;
     env_RunCommand := fun _ _ => inr output;
     env_WriteConfig := None |}.

(** The same, with another answer at the address prompt. *)
Definition typing (server : string) (env : Env) : Env :=
  {| env_UserHomeDir := env_UserHomeDir env;
     env_MkdirAll := env_MkdirAll env;
     env_Create := env_Create env;
     env_serverTextInput := server;
     env_certEmailTextInput := env_certEmailTextInput env;
     env_Login := env_Login env;
     env_RunStage := env_RunStage env;
     env_RunCommand := env_RunCommand env;
     env_WriteConfig := env_WriteConfig env |}.

(** The same, with the login of [user] rejected. *)
Definition rejecting (user : string) (env : Env) : Env :=
  {| env_UserHomeDir := env_UserHomeDir env;
     env_MkdirAll := env_MkdirAll env;
     env_Create := env_Create env;
     env_serverTextInput := env_serverTextInput env;
     env_certEmailTextInput := env_certEmailTextInput env;
     env_Login := fun server u =>
       if String.eqb u user then Some "ssh: handshake failed" else env_Login env server u;
     env_RunStage := env_RunStage env;
     env_RunCommand := env_RunCommand env;
     env_WriteConfig := env_WriteConfig env |}.

(** The same, with the write of the configuration file failing. *)
Definition unwritable (env : Env) : Env :=
  {| env_UserHomeDir := env_UserHomeDir env;
     env_MkdirAll := env_MkdirAll env;
     env_Create := env_Create env;
     env_serverTextInput := env_serverTextInput env;
     env_certEmailTextInput := env_certEmailTextInput env;
     env_Login := env_Login env;
     env_RunStage := env_RunStage env;
     env_RunCommand := env_RunCommand env;
     env_WriteConfig := Some "open default.yaml: permission denied" |}.

Definition age_output : string := "Public key: AGE1ABCXYZ more text".
Definition no_marker : string := "age-keygen: command not found".
Definition double_space : string := "Public key:  AGE1ABCXYZ".

(** The runs that the statements below refer to. *)
Definition complete_run := initCmd_Run (cooperative age_output) fresh.
Definition no_marker_run := initCmd_Run (cooperative no_marker) fresh.
Definition double_space_run := initCmd_Run (cooperative double_space) fresh.
Definition localhost_typed_run := initCmd_Run (typing "localhost" (cooperative age_output)) fresh.
Definition localhost_given_run := initCmd_Run (cooperative age_output) (presupplied "localhost").
Definition unwritable_run := initCmd_Run (unwritable (cooperative age_output)) fresh.
Definition rejected_run := Execute (rejecting "sidekick" (cooperative age_output)) configured.

End Scenario.

(** ** Further observations on strings and logs *)

(** [strings.Count(s, sep)] for a separator of one byte. *)
Fixpoint count_byte (c : Ascii.ascii) (s : string) : nat :=
  match s with
  | EmptyString => 0
  | String a s' => (if Ascii.eqb a c then 1 else 0) + count_byte c s'
  end.

(** [strings.Join(elems, sep)]. *)
Fixpoint Join (elems : list string) (sep : string) : string :=
  match elems with
  | [] => EmptyString
  | e :: rest =>
      match rest with
      | [] => e
      | _ :: _ => e +:+ sep +:+ Join rest sep
      end
  end.

(** The space, the byte on which [initCmd] splits the captured output. *)
Definition space : Ascii.ascii := Ascii.ascii_of_nat 32.

(** The separator of one byte [c]. *)
Definition byte_sep (c : Ascii.ascii) : string := String c EmptyString.

(** The host a login goes to, or a stage or a command is executed on. *)
Definition host_of (e : Event) : option string :=
  match e with
  | EvLogin server _ _ => Some server
  | EvRunStage c _ _ => Some (client_host c)
  | EvRunCommand c _ _ => Some (client_host c)
  | _ => None
  end.

(** The account under which [initCmd] executes a stage or a command: the
    stage that creates the user as [root], everything else as [sidekick]. *)
Definition account_of (e : Event) : option string :=
  match e with
  | EvRunStage _ UsersetupStage _ => Some "root"
  | EvRunStage _ _ _ => Some "sidekick"
  | EvRunCommand _ _ _ => Some "sidekick"
  | _ => None
  end.

Definition runs_under_its_account (e : Event) : Prop :=
  client_user <$> session_of e = account_of e.

(** What a spinner reports: [true] for [Success], [false] for [Fail]. *)
Definition reported (e : Event) : option (Spinner * bool) :=
  match e with
  | EvSpinnerSuccess sp _ => Some (sp, true)
  | EvSpinnerFail sp _ => Some (sp, false)
  | _ => None
  end.

Definition reports_success (sp : Spinner) (e : Event) : Prop := reported e = Some (sp, true).
Definition reports_failure (e : Event) : Prop := snd <$> reported e = Some false.

(** The phase whose success a spinner announces; [stage1Spinner] succeeds
    after the key generation, which follows the base setup. *)
Definition spinner_phase (sp : Spinner) : Phase :=
  match sp with
  | rootLoginSpinner => BootstrapLogin
  | stage0Spinner => AccountCreation
  | sidekickLoginSpinner => OperationalLogin
  | stage1Spinner => KeyGeneration
  | stage2Spinner => ContainerRuntime
  | stage3Spinner => ReverseProxy
  end.

(** The operator is asked for a value. *)
Definition is_prompt (e : Event) : Prop :=
  match e with
  | EvPrompt _ _ => True
  | _ => False
  end.

(** The login as [root] was attempted and rejected. *)
Definition bootstrap_rejected (e : Event) : Prop :=
  phase_of e = Some (BootstrapLogin, false).

Global Instance runs_under_its_account_dec e : Decision (runs_under_its_account e).
Proof. unfold runs_under_its_account. apply _. Defined.
Global Instance reports_success_dec sp e : Decision (reports_success sp e).
Proof. unfold reports_success. apply _. Defined.
Global Instance reports_failure_dec e : Decision (reports_failure e).
Proof. unfold reports_failure. apply _. Defined.
Global Instance is_prompt_dec e : Decision (is_prompt e).
Proof. destruct e; apply _. Defined.
Global Instance bootstrap_rejected_dec e : Decision (bootstrap_rejected e).
Proof. unfold bootstrap_rejected. apply _. Defined.

Module MoreScenarios.

(** The directory of the configuration cannot be made. *)
Definition without_directory (env : Env) : Env :=
  {| env_UserHomeDir := env_UserHomeDir env;
     env_MkdirAll := fun _ => Some "mkdir /home/op/.config: permission denied";
     env_Create := env_Create env;
     env_serverTextInput := env_serverTextInput env;
     env_certEmailTextInput := env_certEmailTextInput env;
     env_Login := env_Login env;
     env_RunStage := env_RunStage env;
     env_RunCommand := env_RunCommand env;
     env_WriteConfig := env_WriteConfig env |}.

(** Address and email given beforehand, and a setting of another command. *)
Definition given_both : Store :=
  {| viper := <["registry" := "ghcr.io"]>
                (<["certEmail" := "ops@example.com"]>
                   {[ "serverAddress" := "192.168.1.1" ]});
     configFile := None |}.

Definition failed_invocation :=
  Execute (without_directory (Scenario.cooperative Scenario.age_output)) Scenario.configured.
Definition complete_invocation :=
  Execute (Scenario.cooperative Scenario.age_output) Scenario.configured.
Definition unattended_run := initCmd_Run (Scenario.cooperative Scenario.age_output) given_both.

End MoreScenarios.

(** ** Symbolic execution of a run

    [initCmd] is straight-line code with early exits: a run is determined by
    the answers it gets. [run_cases] names the result of the run, asks for
    each answer in program order, and leaves one goal per path, with
    outcome, store and log computed. *)

Ltac unfold_run :=
  cbv [initCmd_Run Execute initConfig onKeygenOutput failWith log_Fatalf cobra_CheckErr
       viper_GetString viper_Set viper_WriteConfig os_UserHomeDir os_MkdirAll os_Create
       TextInput_Show utils_Login utils_RunStage utils_RunCommand GetTraefikStage
       emit lift panic os_Exit mbind M_bind mret M_ret outcome final log fst snd
       viper configFile negb];
  cbn [app].

(** The literal texts of [init.go] play no part in the control flow; they
    are named while the paths are explored. *)
Ltac hide_texts :=
  unfold initCmd_Run, Execute, initConfig, log_Fatalf, cobra_CheckErr;
  repeat match goal with
    | |- context [EvPrintln (String ?a ?s)] => set (String a s)
    | |- context [EvError (String ?a ?s)] => set (String a s)
    | |- context [EvInfo (String ?a ?s)] => set (String a s)
    | |- context [EvSpinnerStart _ (String ?a ?s)] => set (String a s)
    | |- context [Text (String ?a ?s)] => set (String a s)
    | |- context [TextInput_Show (String ?a ?s)] => set (String a s)
    | |- context [String.append (String ?a ?s)] => set (String a s)
    | |- context [String.append _ (String ?a ?s)] => set (String a s)
    end.

(** The answer on which the evaluation of [t] is waiting: the innermost
    scrutinee on the spine of [t]. *)
Ltac pending t k :=
  lazymatch t with
  | match ?x with _ => _ end => first [ pending x k | k x ]
  | ?f _ => pending f k
  end.

Ltac intro_args r :=
  repeat lazymatch goal with
         | |- (r = _) → _ => fail
         | |- ∀ _, _ => intro
         end.

(** Case analysis on an answer; the checks of the command itself keep their
    equation. *)
Ltac ask r x :=
  lazymatch x with
  | IsValidIPAddress _ => case_eq x
  | HasPrefix _ _ => case_eq x
  | slice _ _ _ => case_eq x
  | index _ _ => case_eq x
  | _ => case x
  end;
  intro_args r; unfold_run.

Ltac run_step r :=
  lazymatch goal with
  | |- (r = ?t) → _ => pending t ltac:(fun x => ask r x)
  end.

Ltac run_cases m :=
  let r := fresh "r" in
  let Hr := fresh "Hr" in
  remember m as r eqn:Hr; revert Hr;
  hide_texts; unfold_run; repeat run_step r;
  intros ->; unfold_run.

(** A decidable fact about a computed log, settled by evaluation. *)
Ltac by_eval := refine (bool_decide_unpack _ _); vm_compute; exact I.

(** An event that is written in a computed log. *)
Ltac in_log :=
  solve [ repeat first [ apply list_elem_of_here | apply list_elem_of_further ] ].

(** A decidable hypothesis about a computed log that evaluates to false
    closes the goal. *)
Ltac eval_hyp H :=
  try (exfalso;
       match type of H with
       | ?P =>
           let Hf := fresh in
           assert (bool_decide P = false) as Hf by (vm_compute; reflexivity);
           exact (proj1 (bool_decide_eq_false P) Hf H)
       end).

(** ** Examples of the library functions *)

Example Split_words : Split "a b c" " " = ["a"; "b"; "c"].
Proof. reflexivity. Qed.

Example Split_trailing : Split "a b " " " = ["a"; "b"; EmptyString].
Proof. reflexivity. Qed.

Example Split_long_sep : Split "xabyabab" "ab" = ["x"; "y"; EmptyString; EmptyString].
Proof. reflexivity. Qed.

Example Split_no_sep : Split "Public" " " = ["Public"].
Proof. reflexivity. Qed.

Example Split_empty : Split EmptyString " " = [EmptyString].
Proof. reflexivity. Qed.

Example IsValidIPAddress_accepts : IsValidIPAddress "192.168.1.1" = true.
Proof. reflexivity. Qed.

Example IsValidIPAddress_rejects :
  IsValidIPAddress "999.1.1.1" = false
  ∧ IsValidIPAddress "localhost" = false
  ∧ IsValidIPAddress EmptyString = false.
Proof. repeat split; reflexivity. Qed.

(** The complete run of the cooperative scenario: its phases, the sessions
    its stages and its command go over, and what it writes. *)
Example complete_run_phases :
  omap phase_of (log Scenario.complete_run)
  = [(BootstrapLogin, true); (AccountCreation, true); (OperationalLogin, true);
     (BaseSetup, true); (KeyGeneration, true); (ContainerRuntime, true);
     (ReverseProxy, true); (Persistence, true)].
Proof. vm_compute. reflexivity. Qed.

Example complete_run_sessions :
  client_user <$> omap session_of (log Scenario.complete_run)
  = ["root"; "sidekick"; "sidekick"; "sidekick"; "sidekick"].
Proof. vm_compute. reflexivity. Qed.

Example complete_run_settings :
  outcome Scenario.complete_run = Returns tt
  ∧ configFile (final Scenario.complete_run)
    = Some (<["publicKey" := "AGE1ABCXYZ"]>
              (<["certEmail" := "ops@example.com"]>
                 (<["serverAddress" := "192.168.1.1"]> ∅))).
Proof. split; vm_compute; reflexivity. Qed.

(** The run that the extraction stops: the panic of the slice expression
    ends the process with status 2, after the base setup. *)
Example short_output_run :
  outcome (initCmd_Run (Scenario.cooperative "Public key") Scenario.fresh)
  = Panics (SliceBoundsOutOfRange 3 2)
  ∧ omap phase_of (log (initCmd_Run (Scenario.cooperative "Public key") Scenario.fresh))
    = [(BootstrapLogin, true); (AccountCreation, true); (OperationalLogin, true);
       (BaseSetup, true); (KeyGeneration, true)].
Proof. split; vm_compute; reflexivity. Qed.

(** The run without a marker in the captured output ends like the complete
    one, without [publicKey]. *)
Example no_marker_run_result :
  outcome Scenario.no_marker_run = Returns tt
  ∧ omap phase_of (log Scenario.no_marker_run) = omap phase_of (log Scenario.complete_run)
  ∧ configFile (final Scenario.no_marker_run)
    = Some (<["certEmail" := "ops@example.com"]> (<["serverAddress" := "192.168.1.1"]> ∅)).
Proof. repeat split; vm_compute; reflexivity. Qed.

(** The run in which ["localhost"] is typed at the prompt stops there, with
    status 0. *)
Example localhost_typed_run_result :
  Scenario.localhost_typed_run
  = (Exits 0, Scenario.fresh,
     [EvPrintln "Welcome to Sidekick. We need to collect some details from you first";
      EvPrompt "Please enter the IPv4 Address of your VPS" "localhost";
      EvError "You entered an incorrect IP Address - localhost"]).
Proof. vm_compute. reflexivity. Qed.

(** The run to which ["localhost"] is given beforehand goes through all its
    phases on that host. *)
Example localhost_given_run_result :
  outcome Scenario.localhost_given_run = Returns tt
  ∧ client_host <$> omap session_of (log Scenario.localhost_given_run)
    = ["localhost"; "localhost"; "localhost"; "localhost"; "localhost"].
Proof. split; vm_compute; reflexivity. Qed.

(** The invocation in which the login as [sidekick] is rejected. *)
Example rejected_run_result :
  outcome Scenario.rejected_run = Panics (PanicErr "ssh: handshake failed")
  ∧ omap phase_of (log Scenario.rejected_run)
    = [(BootstrapLogin, true); (AccountCreation, true); (OperationalLogin, false)]
  ∧ configFile Scenario.configured = Some {[ "serverAddress" := "192.168.1.1" ]}
  ∧ configFile (final Scenario.rejected_run) = Some ∅.
Proof. repeat split; vm_compute; reflexivity. Qed.

(** ** The checks on logs are sound *)

Section TraceOrderFacts.
Context {E : Type}.

Lemma precededb_spec (p q : E -> bool) (tr : list E) seen :
  precededb p q seen tr = true →
  ∀ pre e post, tr = pre ++ e :: post → q e = true →
    seen = true ∨ Exists (fun x => p x = true) pre.
Proof.
  revert seen. induction tr as [|x tr IH]; intros seen Hb pre e post Heq Hq.
  - by destruct pre.
  - simpl in Hb. apply andb_prop in Hb as [Hx Hrest].
    destruct pre as [|y pre]; simplify_eq/=.
    + rewrite Hq in Hx. left. by destruct seen.
    + destruct (IH _ Hrest pre e post eq_refl Hq) as [Hseen|Hex].
      * apply orb_prop in Hseen as [->| Hp]; [by left|].
        right. by apply Exists_cons_hd.
      * right. by apply Exists_cons_tl.
Qed.

Lemma never_afterb_spec (p q : E -> bool) (tr : list E) seen :
  never_afterb p q seen tr = true →
  (seen = true → Forall (fun x => q x = false) tr)
  ∧ ∀ pre e post, tr = pre ++ e :: post → p e = true →
      Forall (fun x => q x = false) post.
Proof.
  revert seen. induction tr as [|x tr IH]; intros seen Hb.
  - split; [constructor|]. intros pre ???. by destruct pre.
  - simpl in Hb. apply andb_prop in Hb as [Hx Hrest].
    destruct (IH _ Hrest) as [IH1 IH2]. split.
    + intros ->. simpl in Hx. constructor.
      * by destruct (q x).
      * by apply IH1.
    + intros pre e post Heq Hp. destruct pre as [|y pre]; simplify_eq/=.
      * apply IH1. rewrite Hp. by destruct seen.
      * by eapply IH2.
Qed.

Context (P Q : E -> Prop) `{!∀ e, Decision (P e), !∀ e, Decision (Q e)}.

Lemma preceded_decide (tr : list E) :
  precededb (fun e => bool_decide (P e)) (fun e => bool_decide (Q e)) false tr = true →
  preceded P Q tr.
Proof.
  intros Hb pre e post Heq HQ.
  destruct (precededb_spec _ _ _ _ Hb pre e post Heq) as [?|Hex]; [|done|].
  - by apply bool_decide_eq_true.
  - eapply Exists_impl; [exact Hex|]. intros x. by rewrite bool_decide_eq_true.
Qed.

Lemma never_after_decide (tr : list E) :
  never_afterb (fun e => bool_decide (P e)) (fun e => bool_decide (Q e)) false tr = true →
  never_after P Q tr.
Proof.
  intros Hb pre e post Heq HP.
  destruct (never_afterb_spec _ _ _ _ Hb) as [_ Hpost].
  eapply Forall_impl; [eapply (Hpost pre e post Heq); by apply bool_decide_eq_true|].
  intros x. by rewrite bool_decide_eq_false.
Qed.

End TraceOrderFacts.

(** ** Slices *)

Lemma slice_short {A} (a : list A) low high :
  (length a < high)%nat → slice a low high = Panics (SliceBoundsOutOfRange high (length a)).
Proof. intros Hlen. unfold slice. by rewrite decide_True. Qed.

Lemma slice_index_0 {A} (a l : list A) low high x :
  slice a low high = Returns l → index l 0 = Returns x → a !! low = Some x.
Proof.
  unfold slice, index. intros Hs Hi.
  repeat case_decide; simplify_eq.
  destruct (take (high - low) (drop low a) !! 0%nat) as [y|] eqn:Hy; simplify_eq.
  apply lookup_take_Some in Hy as [Hy _]. by rewrite lookup_drop, Nat.add_0_r in Hy.
Qed.

(** ** The properties *)

(** C1, as the specification states it, fails: on the output
    ["age-keygen: command not found"], which lacks the marker, the run of
    the cooperative scenario ends with status 0, reports the success of the
    setup stage and writes a configuration without [publicKey]. *)
Lemma missing_marker_is_not_fatal :
  ¬ (captured_output (log Scenario.no_marker_run) = Some Scenario.no_marker →
     HasPrefix Scenario.no_marker marker = false →
     exit_status (outcome Scenario.no_marker_run) ≠ 0%Z
     ∧ (EvSpinnerSuccess stage1Spinner (SpinnerSuccessMessage SetupStage)
          ∉ log Scenario.no_marker_run)
     ∧ ∀ m, configFile (final Scenario.no_marker_run) = Some m → holds m "publicKey").
Proof.
  intros Hclaim. destruct Hclaim as [Hstatus _]; [reflexivity..|].
  by apply Hstatus.
Qed.

(** C1, amended. When the captured output does not start with the marker
    the run goes on without a public key: it reports the success of the
    setup stage, runs the Docker stage, and leaves the setting [publicKey]
    as it was before the run. *)
Theorem missing_marker_is_skipped (env : Env) (s : Store) (output : string) :
  captured_output (log (initCmd_Run env s)) = Some output →
  HasPrefix output marker = false →
  (EvSpinnerSuccess stage1Spinner (SpinnerSuccessMessage SetupStage) ∈ log (initCmd_Run env s))
  ∧ Exists (ran ContainerRuntime) (log (initCmd_Run env s))
  ∧ viper (final (initCmd_Run env s)) !! "publicKey" = viper s !! "publicKey".
Proof.
  destruct s as [settings file].
  run_cases (initCmd_Run env {| viper := settings; configFile := file |}).
  all: intros Hout Hprefix; cbv in Hout; simplify_eq; try congruence.
  all: repeat split.
  all: lazymatch goal with
       | |- _ ∈ _ => in_log
       | |- _ !! _ = _ => by rewrite !lookup_insert_ne
       | |- _ => by_eval
       end.
Qed.

Lemma missing_marker_is_skipped_witness :
  captured_output (log Scenario.no_marker_run) = Some Scenario.no_marker
  ∧ HasPrefix Scenario.no_marker marker = false
  ∧ (EvSpinnerSuccess stage1Spinner (SpinnerSuccessMessage SetupStage)
       ∈ log Scenario.no_marker_run)
  ∧ Exists (ran ContainerRuntime) (log Scenario.no_marker_run)
  ∧ viper (final Scenario.no_marker_run) !! "publicKey" = viper Scenario.fresh !! "publicKey".
Proof.
  split; [reflexivity|]. split; [reflexivity|].
  apply (missing_marker_is_skipped (Scenario.cooperative Scenario.no_marker)
           Scenario.fresh Scenario.no_marker); reflexivity.
Defined.

(** C2. A run whose input is invalid ends with exit status zero: when no
    address is given beforehand and the one typed at the prompt is not a
    valid IPv4 address, or when no email is given beforehand and the one
    typed is empty, [initCmd] prints an error and calls [os.Exit(0)]. *)
Theorem invalid_input_exits_with_status_zero (env : Env) (s : Store) :
  (GetString (viper s) "serverAddress" = EmptyString
   ∧ IsValidIPAddress (env_serverTextInput env) = false)
  ∨ (GetString (viper s) "certEmail" = EmptyString
     ∧ env_certEmailTextInput env = EmptyString) →
  outcome (initCmd_Run env s) = Exits 0
  ∧ exit_status (outcome (initCmd_Run env s)) = 0%Z
  ∧ Exists (fun e => ∃ text, e = EvError text) (log (initCmd_Run env s))
  ∧ Forall (fun e => ¬ is_phase e) (log (initCmd_Run env s)).
Proof.
  run_cases (initCmd_Run env s).
  all: intros [[Hstored Hinvalid]|[Hstored Hempty]];
    try (exfalso; first [contradiction | congruence]).
  all: repeat split;
    try (apply Exists_exists; eexists; split; [|by eexists]; in_log).
  all: by_eval.
Qed.

Lemma invalid_input_exits_with_status_zero_witness :
  GetString (viper Scenario.fresh) "serverAddress" = EmptyString
  ∧ IsValidIPAddress "localhost" = false
  ∧ outcome Scenario.localhost_typed_run = Exits 0
  ∧ exit_status (outcome Scenario.localhost_typed_run) = 0%Z
  ∧ Exists (fun e => ∃ text, e = EvError text) (log Scenario.localhost_typed_run)
  ∧ Forall (fun e => ¬ is_phase e) (log Scenario.localhost_typed_run).
Proof.
  split; [reflexivity|]. split; [reflexivity|].
  apply (invalid_input_exits_with_status_zero
           (Scenario.typing "localhost" (Scenario.cooperative Scenario.age_output))
           Scenario.fresh).
  left. split; reflexivity.
Defined.

(** The other ends of a run have the status the specification asks for: a
    phase that reports an error leads to [log.Fatalf] (status 1) or to a
    panic (status 2), and a run that announces that the VPS is ready
    returns, which gives status 0. *)
Lemma other_exits_follow_the_contract (env : Env) (s : Store) :
  (Exists failed (log (initCmd_Run env s)) →
   exit_status (outcome (initCmd_Run env s)) ≠ 0%Z)
  ∧ (EvInfo readyMessage ∈ log (initCmd_Run env s) →
     outcome (initCmd_Run env s) = Returns tt).
Proof.
  run_cases (initCmd_Run env s).
  all: split; [intros Hfailed; eval_hyp Hfailed | intros Hready; eval_hyp Hready]; done.
Qed.




(** C4, as the specification states it, fails: [initConfig], which cobra
    runs before [initCmd], calls [os.Create] on the configuration file. With
    a file written by an earlier run in place and the login as [sidekick]
    rejected, the file is empty after the run. *)
Lemma rejected_login_leaves_truncated_file :
  ¬ (Exists (succeeded AccountCreation) (log Scenario.rejected_run) →
     Exists login_rejected (log Scenario.rejected_run) →
     Forall (fun e => ¬ after_login e) (log Scenario.rejected_run)
     ∧ configFile (final Scenario.rejected_run) = configFile Scenario.configured).
Proof.
  intros Hclaim. destruct Hclaim as [_ Hfile]; [by_eval..|].
  assert (configFile (final Scenario.rejected_run) = Some ∅) as Hempty
    by (vm_compute; reflexivity).
  rewrite Hempty in Hfile. simplify_eq.
Qed.

(** C4, amended. When the account creation has succeeded and the login as
    [sidekick] is rejected, the run panics there: no stage, no command and
    no write of the configuration follows, and the configuration file is
    left as [initConfig] left it at the start of the invocation. *)
Theorem rejected_login_stops_the_run (env : Env) (s : Store) :
  Exists (succeeded AccountCreation) (log (Execute env s)) →
  Exists login_rejected (log (Execute env s)) →
  Forall (fun e => ¬ after_login e) (log (Execute env s))
  ∧ (∃ err, outcome (Execute env s) = Panics (PanicErr err))
  ∧ configFile (final (Execute env s)) = configFile (final (initConfig env s)).
Proof.
  destruct s as [settings file].
  run_cases (Execute env {| viper := settings; configFile := file |}).
  all: intros Hcreated Hrejected; eval_hyp Hcreated; eval_hyp Hrejected.
  all: split; [by_eval|]; split; [by eexists|].
  all: done.
Qed.

Lemma rejected_login_stops_the_run_witness :
  Exists (succeeded AccountCreation) (log Scenario.rejected_run)
  ∧ Exists login_rejected (log Scenario.rejected_run)
  ∧ Forall (fun e => ¬ after_login e) (log Scenario.rejected_run)
  ∧ (∃ err, outcome Scenario.rejected_run = Panics (PanicErr err))
  ∧ configFile (final Scenario.rejected_run)
    = configFile (final (initConfig (Scenario.rejecting "sidekick"
                                       (Scenario.cooperative Scenario.age_output))
                           Scenario.configured)).
Proof.
  split; [by_eval|]. split; [by_eval|].
  apply (rejected_login_stops_the_run
           (Scenario.rejecting "sidekick" (Scenario.cooperative Scenario.age_output))
           Scenario.configured); by_eval.
Defined.

(** C5. In every run the phases come in the order in which [initCmd] lists
    them, each only after the one before it has succeeded: the account
    creation after the bootstrap login, the operational login after the
    account creation, the base setup after the operational login, the key
    generation after the base setup, the Docker stage after the base setup
    and the key generation, the Traefik stage after the Docker stage, the
    write of the configuration after the Traefik stage. And once a phase
    has failed no phase runs any more. *)
Theorem phases_in_order_halt_at_first_failure (env : Env) (s : Store) :
  preceded (succeeded BootstrapLogin) (ran AccountCreation) (log (initCmd_Run env s))
  ∧ preceded (succeeded AccountCreation) (ran OperationalLogin) (log (initCmd_Run env s))
  ∧ preceded (succeeded OperationalLogin) (ran BaseSetup) (log (initCmd_Run env s))
  ∧ preceded (succeeded BaseSetup) (ran KeyGeneration) (log (initCmd_Run env s))
  ∧ preceded (succeeded BaseSetup) (ran ContainerRuntime) (log (initCmd_Run env s))
  ∧ preceded (succeeded KeyGeneration) (ran ContainerRuntime) (log (initCmd_Run env s))
  ∧ preceded (succeeded ContainerRuntime) (ran ReverseProxy) (log (initCmd_Run env s))
  ∧ preceded (succeeded ReverseProxy) (ran Persistence) (log (initCmd_Run env s))
  ∧ never_after failed is_phase (log (initCmd_Run env s)).
Proof.
  run_cases (initCmd_Run env s).
  all: repeat split;
    first [ refine (preceded_decide _ _ _ _) | refine (never_after_decide _ _ _ _) ];
    vm_compute; reflexivity.
Qed.

(** C6. On the output ["Public key: AGE1ABCXYZ more text"] the receive case
    returns normally and sets [publicKey] to ["AGE1ABCXYZ"], whatever the
    store was. *)
Theorem extraction_example (s : Store) :
  onKeygenOutput "Public key: AGE1ABCXYZ more text" s
  = (Returns tt,
     {| viper := <["publicKey" := "AGE1ABCXYZ"]> (viper s); configFile := configFile s |},
     [])
  ∧ GetString (viper (final (onKeygenOutput "Public key: AGE1ABCXYZ more text" s))) "publicKey"
    = "AGE1ABCXYZ".
Proof.
  assert (onKeygenOutput "Public key: AGE1ABCXYZ more text" s
          = (Returns tt,
             {| viper := <["publicKey" := "AGE1ABCXYZ"]> (viper s);
                configFile := configFile s |}, [])) as Hrun by reflexivity.
  split; [exact Hrun|].
  rewrite Hrun. unfold GetString, final. cbn [fst snd viper]. by rewrite lookup_insert_eq.
Qed.

(** C7, as the specification states it, fails: on the output
    ["Public key:  AGE1ABCXYZ"], with two spaces after the colon, every
    phase succeeds and the run ends with status 0, but the string at index 2
    is empty and the configuration holds an empty [publicKey]. *)
Lemma marker_with_empty_token_gives_empty_key :
  ¬ (all_succeeded (log Scenario.double_space_run) →
     captured_output (log Scenario.double_space_run) = Some Scenario.double_space →
     HasPrefix Scenario.double_space marker = true →
     exit_status (outcome Scenario.double_space_run) = 0%Z
     ∧ ∃ m, configFile (final Scenario.double_space_run) = Some m
            ∧ holds m "serverAddress" ∧ holds m "certEmail" ∧ holds m "publicKey").
Proof.
  intros Hclaim.
  destruct Hclaim as (_ & m & Hm & _ & _ & Hkey); [|reflexivity..|].
  - intros []; by_eval.
  - assert (configFile (final Scenario.double_space_run)
            = Some (<["publicKey" := EmptyString]>
                      (<["certEmail" := "ops@example.com"]>
                         (<["serverAddress" := "192.168.1.1"]> ∅))))
      as Hfile by (vm_compute; reflexivity).
    rewrite Hfile in Hm. simplify_eq. apply Hkey. reflexivity.
Qed.

(** C7, amended. When every phase has succeeded, and the captured output
    starts with the marker and has a non-empty string at index 2 of its
    split on single spaces, the run returns (exit status 0) and the
    configuration file holds [serverAddress], [certEmail] and [publicKey],
    all non-empty, [publicKey] being that string. *)
Theorem complete_run_persists_configuration
    (env : Env) (s : Store) (output key : string) :
  all_succeeded (log (initCmd_Run env s)) →
  captured_output (log (initCmd_Run env s)) = Some output →
  HasPrefix output marker = true →
  Split output " " !! 2%nat = Some key →
  key ≠ EmptyString →
  outcome (initCmd_Run env s) = Returns tt
  ∧ exit_status (outcome (initCmd_Run env s)) = 0%Z
  ∧ ∃ m, configFile (final (initCmd_Run env s)) = Some m
         ∧ holds m "serverAddress" ∧ holds m "certEmail" ∧ holds m "publicKey"
         ∧ GetString m "publicKey" = key.
Proof.
  destruct s as [settings file].
  run_cases (initCmd_Run env {| viper := settings; configFile := file |}).
  all: intros Hall Hout Hprefix Hkey Hne.
  all: pose proof (Hall Persistence) as Hwrite; eval_hyp Hwrite.
  all: cbv in Hout; simplify_eq; try congruence.
  all: match goal with
       | Hs : slice _ 2 3 = Returns ?l, Hi : index ?l 0 = Returns ?k |- _ =>
           pose proof (slice_index_0 _ _ _ _ _ Hs Hi) as Hk; simplify_eq
       end.
  all: split; [done|]; split; [done|]; eexists; split; [done|].
  all: unfold holds, GetString in *.
  all: repeat (rewrite lookup_insert_eq || rewrite lookup_insert_ne by done);
    cbn [default from_option]; unfold id.
  all: repeat split; try done.
  all: intros Hempty;
    match goal with
    | H : IsValidIPAddress _ = true |- _ => rewrite Hempty in H; discriminate H
    end.
Qed.

Lemma complete_run_persists_configuration_witness :
  all_succeeded (log Scenario.complete_run)
  ∧ captured_output (log Scenario.complete_run) = Some Scenario.age_output
  ∧ HasPrefix Scenario.age_output marker = true
  ∧ Split Scenario.age_output " " !! 2%nat = Some "AGE1ABCXYZ"
  ∧ outcome Scenario.complete_run = Returns tt
  ∧ exit_status (outcome Scenario.complete_run) = 0%Z
  ∧ ∃ m, configFile (final Scenario.complete_run) = Some m
         ∧ holds m "serverAddress" ∧ holds m "certEmail" ∧ holds m "publicKey"
         ∧ GetString m "publicKey" = "AGE1ABCXYZ".
Proof.
  assert (all_succeeded (log Scenario.complete_run)) as Hall by (intros []; by_eval).
  split; [exact Hall|]. split; [reflexivity|]. split; [reflexivity|]. split; [reflexivity|].
  apply (complete_run_persists_configuration
           (Scenario.cooperative Scenario.age_output) Scenario.fresh
           Scenario.age_output "AGE1ABCXYZ");
    [exact Hall | reflexivity | reflexivity | reflexivity | discriminate].
Defined.

(** C8. When the Traefik stage, the last of the remote stages, has succeeded
    and the write of the configuration file fails, the run panics with the
    error of the write: the exit status is not zero, the message that the
    VPS is ready is not printed, and the configuration file is as it was. *)
Theorem persistence_failure_is_fatal (env : Env) (s : Store) (err : error) :
  Exists (succeeded ReverseProxy) (log (initCmd_Run env s)) →
  env_WriteConfig env = Some err →
  outcome (initCmd_Run env s) = Panics (PanicErr err)
  ∧ exit_status (outcome (initCmd_Run env s)) ≠ 0%Z
  ∧ (EvWriteConfig (Some err) ∈ log (initCmd_Run env s))
  ∧ (EvInfo readyMessage ∉ log (initCmd_Run env s))
  ∧ configFile (final (initCmd_Run env s)) = configFile s.
Proof.
  run_cases (initCmd_Run env s).
  all: intros Hproxy Hwrite; eval_hyp Hproxy.
  all: simplify_eq.
  all: repeat split; first [ done | in_log | by_eval ].
Qed.

Lemma persistence_failure_is_fatal_witness :
  Exists (succeeded ReverseProxy) (log Scenario.unwritable_run)
  ∧ outcome Scenario.unwritable_run = Panics (PanicErr "open default.yaml: permission denied")
  ∧ exit_status (outcome Scenario.unwritable_run) ≠ 0%Z
  ∧ (EvWriteConfig (Some "open default.yaml: permission denied") ∈ log Scenario.unwritable_run)
  ∧ (EvInfo readyMessage ∉ log Scenario.unwritable_run)
  ∧ configFile (final Scenario.unwritable_run) = configFile Scenario.fresh.
Proof.
  split; [by_eval|].
  apply (persistence_failure_is_fatal
           (Scenario.unwritable (Scenario.cooperative Scenario.age_output))
           Scenario.fresh).
  - by_eval.
  - reflexivity.
Defined.

(** C9. In every run, after the successful login as [sidekick] no stage and
    no command is executed over a session of the [root] account. *)
Theorem bootstrap_session_not_reused (env : Env) (s : Store) :
  never_after (succeeded OperationalLogin) (over_account "root") (log (initCmd_Run env s)).
Proof.
  run_cases (initCmd_Run env s).
  all: refine (never_after_decide _ _ _ _); vm_compute; reflexivity.
Qed.

(** C10. On every output that starts with the marker but splits on single
    spaces into fewer than three strings, the slice expression [[2:3]] is
    out of range: the receive case panics, it does not return. *)
Theorem extraction_out_of_range (output : string) (s : Store) :
  HasPrefix output marker = true →
  (length (Split output " ") < 3)%nat →
  onKeygenOutput output s
  = (Panics (SliceBoundsOutOfRange 3 (length (Split output " "))), s, []).
Proof.
  intros Hprefix Hlen. unfold onKeygenOutput. rewrite Hprefix.
  unfold mbind, M_bind, lift. by rewrite slice_short.
Qed.

Lemma extraction_out_of_range_witness :
  HasPrefix "Public key" marker = true
  ∧ (length (Split "Public key" " ") < 3)%nat
  ∧ onKeygenOutput "Public key" Scenario.fresh
    = (Panics (SliceBoundsOutOfRange 3 2), Scenario.fresh, []).
Proof.
  split; [reflexivity|]. split; [vm_compute; lia|].
  apply (extraction_out_of_range "Public key" Scenario.fresh); [reflexivity|vm_compute; lia].
Defined.

(** * Further properties of the code *)

(** ** Splitting on one byte *)

Lemma HasPrefix_empty (s : string) : HasPrefix s EmptyString = true.
Proof. by destruct s. Qed.

Section SplitOnByte.
Context (c : Ascii.ascii).

Lemma Split_byte_nonempty (s : string) : Split s (byte_sep c) ≠ [].
Proof.
  unfold Split, byte_sep. induction s as [|a s IH]; simpl; [easy|].
  rewrite HasPrefix_empty. destruct (Ascii.eqb a c); [easy|].
  destruct (split_from (String c EmptyString) 0 s); easy.
Qed.

Lemma Split_byte_sep (s : string) :
  Split (String c s) (byte_sep c) = EmptyString :: Split s (byte_sep c).
Proof. unfold Split, byte_sep. simpl. by rewrite Ascii.eqb_refl, HasPrefix_empty. Qed.

Lemma Split_byte_other (a : Ascii.ascii) (s : string) :
  Ascii.eqb a c = false →
  ∃ tok toks, Split s (byte_sep c) = tok :: toks
              ∧ Split (String a s) (byte_sep c) = String a tok :: toks.
Proof.
  intros Hne. pose proof (Split_byte_nonempty s) as Hs.
  unfold Split, byte_sep in *. simpl. rewrite Hne.
  destruct (split_from (String c EmptyString) 0 s) as [|tok toks]; [done|]. eauto.
Qed.

Lemma Split_without_byte (s : string) :
  count_byte c s = 0 → Split s (byte_sep c) = [s].
Proof.
  induction s as [|a s IH]; [done|]. cbn [count_byte].
  destruct (Ascii.eqb a c) eqn:Ha; [done|]. intros Hs.
  destruct (Split_byte_other a s Ha) as (tok & toks & Htl & ->).
  rewrite IH in Htl by done. by simplify_eq.
Qed.

Lemma Split_at_first_byte (s rest : string) :
  count_byte c s = 0 →
  Split (s +:+ String c rest) (byte_sep c) = s :: Split rest (byte_sep c).
Proof.
  induction s as [|a s IH]; cbn [count_byte].
  - intros _. apply Split_byte_sep.
  - change (String a s +:+ String c rest) with (String a (s +:+ String c rest)).
    destruct (Ascii.eqb a c) eqn:Ha; [done|]. intros Hs.
    destruct (Split_byte_other a (s +:+ String c rest) Ha) as (tok & toks & Htl & ->).
    rewrite IH in Htl by done. by simplify_eq.
Qed.

Lemma length_Split_byte (s : string) :
  length (Split s (byte_sep c)) = S (count_byte c s).
Proof.
  induction s as [|a s IH]; [done|]. cbn [count_byte].
  destruct (Ascii.eqb a c) eqn:Ha.
  - apply Ascii.eqb_eq in Ha as ->. rewrite Split_byte_sep. cbn [length]. by rewrite IH.
  - destruct (Split_byte_other a s Ha) as (tok & toks & Htl & ->).
    by rewrite Htl in IH.
Qed.

End SplitOnByte.

Lemma slice_2_3_lookup {A} (a : list A) (x : A) :
  a !! 2%nat = Some x → slice a 2 3 = Returns [x].
Proof.
  intros Hx. unfold slice. pose proof (lookup_lt_Some _ _ _ Hx).
  rewrite decide_False, decide_False by lia.
  do 3 (destruct a as [|? a]; simplify_eq/=; try lia). done.
Qed.

(** X1. Splitting on one byte loses nothing: the strings of the split,
    joined with the separator, give the string back; there is one more of
    them than occurrences of the byte, and none of them contains it. *)
Theorem Split_byte_round_trip (c : Ascii.ascii) (s : string) :
  Join (Split s (byte_sep c)) (byte_sep c) = s
  ∧ length (Split s (byte_sep c)) = S (count_byte c s)
  ∧ Forall (fun tok => count_byte c tok = 0) (Split s (byte_sep c)).
Proof.
  split; [|split; [apply length_Split_byte|]].
  - induction s as [|a s IH]; [done|].
    destruct (Ascii.eqb a c) eqn:Ha.
    + apply Ascii.eqb_eq in Ha as ->. rewrite Split_byte_sep.
      pose proof (Split_byte_nonempty c s) as Hne.
      destruct (Split s (byte_sep c)) as [|tok toks] eqn:Hs; [done|].
      cbn [Join]. cbn [Join] in IH. by rewrite IH.
    + destruct (Split_byte_other c a s Ha) as (tok & toks & Htl & ->).
      rewrite Htl in IH. cbn [Join] in *.
      destruct toks; cbn [String.append]; by rewrite <- IH.
  - induction s as [|a s IH]; [by repeat constructor|].
    destruct (Ascii.eqb a c) eqn:Ha.
    + apply Ascii.eqb_eq in Ha as ->. rewrite Split_byte_sep. by constructor.
    + destruct (Split_byte_other c a s Ha) as (tok & toks & Htl & ->).
      rewrite Htl in IH. apply Forall_cons in IH as [Htok Htoks].
      constructor; [|done]. cbn [count_byte]. by rewrite Ha.
Qed.

(** ** The extraction of the public key *)

Lemma Split_after_marker (rest : string) :
  Split (marker +:+ rest) " " = "Public" :: Split ("key" +:+ rest) " ".
Proof. exact (Split_at_first_byte space "Public" ("key" +:+ rest) eq_refl). Qed.

Lemma Split_after_label (text : string) :
  Split ("Public key: " +:+ text) " " = "Public" :: "key:" :: Split text " ".
Proof.
  change ("Public key: " +:+ text) with (marker +:+ (":" +:+ String space text)).
  rewrite Split_after_marker. f_equal.
  exact (Split_at_first_byte space "key:" text eq_refl).
Qed.

Lemma onKeygenOutput_stores (output key : string) (s : Store) :
  HasPrefix output marker = true →
  Split output " " !! 2%nat = Some key →
  onKeygenOutput output s
  = (Returns tt,
     {| viper := <["publicKey" := key]> (viper s); configFile := configFile s |}, []).
Proof.
  intros Hprefix Hkey. unfold onKeygenOutput. rewrite Hprefix.
  unfold mbind, M_bind, lift. by rewrite (slice_2_3_lookup _ _ Hkey).
Qed.

(** X2. The value stored under [publicKey] is the text that follows
    ["Public key: "] up to the next space, or up to the end of the output
    when no space follows: bytes other than the space, a line feed among
    them, stay in the value. *)
Theorem extraction_takes_text_up_to_next_space (key rest : string) (s : Store) :
  count_byte space key = 0 →
  onKeygenOutput ("Public key: " +:+ key +:+ " " +:+ rest) s
  = (Returns tt,
     {| viper := <["publicKey" := key]> (viper s); configFile := configFile s |}, [])
  ∧ onKeygenOutput ("Public key: " +:+ key) s
    = (Returns tt,
       {| viper := <["publicKey" := key]> (viper s); configFile := configFile s |}, []).
Proof.
  intros Hkey. split; apply onKeygenOutput_stores; try reflexivity;
    rewrite Split_after_label.
  - replace (Split (key +:+ " " +:+ rest) " ") with (key :: Split rest " "); [done|].
    symmetry. exact (Split_at_first_byte space key rest Hkey).
  - replace (Split key " ") with [key]; [done|].
    symmetry. exact (Split_without_byte space key Hkey).
Qed.

Lemma extraction_takes_text_up_to_next_space_witness :
  count_byte space ("age1qx" +:+ LF) = 0
  ∧ onKeygenOutput ("Public key: " +:+ ("age1qx" +:+ LF) +:+ " " +:+ "created") Scenario.fresh
    = (Returns tt,
       {| viper := <["publicKey" := "age1qx" +:+ LF]> (viper Scenario.fresh);
          configFile := configFile Scenario.fresh |}, [])
  ∧ onKeygenOutput ("Public key: " +:+ ("age1qx" +:+ LF)) Scenario.fresh
    = (Returns tt,
       {| viper := <["publicKey" := "age1qx" +:+ LF]> (viper Scenario.fresh);
          configFile := configFile Scenario.fresh |}, []).
Proof.
  split; [reflexivity|].
  apply (extraction_takes_text_up_to_next_space ("age1qx" +:+ LF) "created" Scenario.fresh).
  reflexivity.
Defined.

(** X3. On an output that starts with the marker the extraction panics
    exactly when no space follows the marker; with a space after it, it
    returns. *)
Theorem extraction_panics_iff_no_space_follows (rest : string) (s : Store) :
  (∃ v, outcome (onKeygenOutput (marker +:+ rest) s) = Panics v)
  ↔ count_byte space rest = 0.
Proof.
  assert (HasPrefix (marker +:+ rest) marker = true) as Hprefix by apply HasPrefix_empty.
  assert (length (Split (marker +:+ rest) " ") = S (S (count_byte space rest))) as Hlen
    by apply (length_Split_byte space).
  split.
  - intros [v Hv]. destruct (count_byte space rest) eqn:Hcount; [done|]. exfalso.
    destruct (lookup_lt_is_Some_2 (Split (marker +:+ rest) " ") 2) as [key Hkey]; [lia|].
    by rewrite (onKeygenOutput_stores _ _ s Hprefix Hkey) in Hv.
  - intros Hcount. rewrite Hcount in Hlen. eexists.
    unfold onKeygenOutput. rewrite Hprefix. unfold mbind, M_bind, lift.
    rewrite slice_short by lia. reflexivity.
Qed.

(** ** The invocation as a whole *)

(** X4. When [initConfig] does not return (no home directory, or the
    directory or the file cannot be created) the invocation ends there with
    status 1: the store is as it was, the operator is asked nothing and no
    phase of [initCmd] runs. *)
Theorem initConfig_failure_stops_the_invocation (env : Env) (s : Store) :
  outcome (initConfig env s) ≠ Returns tt →
  Execute env s = initConfig env s
  ∧ outcome (Execute env s) = Exits 1
  ∧ final (Execute env s) = s
  ∧ Forall (fun e => ¬ is_phase e ∧ ¬ is_prompt e) (log (Execute env s)).
Proof.
  destruct s as [settings file]. intros Hfails.
  assert (Execute env {| viper := settings; configFile := file |}
          = initConfig env {| viper := settings; configFile := file |}) as ->.
  { unfold Execute, mbind, M_bind.
    destruct (initConfig env _) as [[[[]| |] s'] l]; done. }
  revert Hfails. unfold_run.
  destruct (env_UserHomeDir env) as [home [e|]]; unfold_run;
    [|destruct (env_MkdirAll env _); unfold_run;
      [|destruct (env_Create env _); unfold_run]].
  all: intros Hfails; try done.
  all: repeat split; try done; by_eval.
Qed.

Lemma initConfig_failure_stops_the_invocation_witness :
  outcome (initConfig (MoreScenarios.without_directory
                         (Scenario.cooperative Scenario.age_output))
             Scenario.configured) ≠ Returns tt
  ∧ MoreScenarios.failed_invocation
    = initConfig (MoreScenarios.without_directory (Scenario.cooperative Scenario.age_output))
        Scenario.configured
  ∧ outcome MoreScenarios.failed_invocation = Exits 1
  ∧ final MoreScenarios.failed_invocation = Scenario.configured
  ∧ Forall (fun e => ¬ is_phase e ∧ ¬ is_prompt e) (log MoreScenarios.failed_invocation).
Proof.
  assert (outcome (initConfig (MoreScenarios.without_directory
                                 (Scenario.cooperative Scenario.age_output))
                     Scenario.configured) ≠ Returns tt) as Hfails by (vm_compute; discriminate).
  split; [exact Hfails|].
  exact (initConfig_failure_stops_the_invocation
           (MoreScenarios.without_directory (Scenario.cooperative Scenario.age_output))
           Scenario.configured Hfails).
Defined.

(** X5. When [initConfig] returns, what the configuration file held before
    the invocation is gone whatever [initCmd] does next: after the
    invocation the file holds the settings of the run if the final write
    has succeeded, and is empty otherwise. *)
Theorem invocation_replaces_the_file (env : Env) (s : Store) :
  outcome (initConfig env s) = Returns tt →
  (Exists (succeeded Persistence) (log (Execute env s))
   ∧ configFile (final (Execute env s)) = Some (viper (final (Execute env s))))
  ∨ (¬ Exists (succeeded Persistence) (log (Execute env s))
     ∧ configFile (final (Execute env s)) = Some ∅).
Proof.
  destruct s as [settings file].
  run_cases (Execute env {| viper := settings; configFile := file |}).
  all: intros Hinit; try discriminate Hinit.
  all: first [ left; split; [by_eval | reflexivity]
             | right; split; [by_eval | reflexivity] ].
Qed.

Lemma invocation_replaces_the_file_witness :
  outcome (initConfig (Scenario.cooperative Scenario.age_output) Scenario.configured)
  = Returns tt
  ∧ ((Exists (succeeded Persistence) (log MoreScenarios.complete_invocation)
      ∧ configFile (final MoreScenarios.complete_invocation)
        = Some (viper (final MoreScenarios.complete_invocation)))
     ∨ (¬ Exists (succeeded Persistence) (log MoreScenarios.complete_invocation)
        ∧ configFile (final MoreScenarios.complete_invocation) = Some ∅)).
Proof.
  split; [reflexivity|].
  apply (invocation_replaces_the_file (Scenario.cooperative Scenario.age_output)
           Scenario.configured).
  reflexivity.
Defined.

(** ** What every run of [initCmd] keeps *)

(** X6. The Traefik stage is never built with an empty email: the email in
    it is the one given beforehand when there is one, otherwise the one
    typed at the prompt, and it is the [certEmail] setting at the end of
    the run. *)
Theorem traefik_stage_gets_the_certEmail
    (env : Env) (s : Store) (c : Client) (email : string) (err : option error) :
  EvRunStage c (TraefikStage email) err ∈ log (initCmd_Run env s) →
  email ≠ EmptyString
  ∧ email = GetString (viper (final (initCmd_Run env s))) "certEmail"
  ∧ (GetString (viper s) "certEmail" ≠ EmptyString → email = GetString (viper s) "certEmail")
  ∧ (GetString (viper s) "certEmail" = EmptyString → email = env_certEmailTextInput env).
Proof.
  destruct s as [settings file].
  run_cases (initCmd_Run env {| viper := settings; configFile := file |}).
  all: intros Hin.
  all: match type of Hin with
       | _ ∈ ?l =>
           lazymatch l with
           | context [TraefikStage ?x] =>
               assert (Forall (fun e => match e with
                                        | EvRunStage _ (TraefikStage em) _ => em = x
                                        | _ => True
                                        end) l) as Hall
                 by (repeat (apply Forall_cons; split; [first [exact I | reflexivity] |]);
                     apply Forall_nil_2)
           | _ =>
               assert (Forall (fun e => match e with
                                        | EvRunStage _ (TraefikStage em) _ => False
                                        | _ => True
                                        end) l) as Hall
                 by (repeat (apply Forall_cons; split; [exact I |]); apply Forall_nil_2)
           end;
           rewrite Forall_forall in Hall; specialize (Hall _ Hin); cbv beta iota in Hall
       end.
  all: try done; subst email.
  all: unfold GetString in *;
    repeat (rewrite lookup_insert_eq || rewrite lookup_insert_ne by done);
    cbn [default from_option]; unfold id.
  all: repeat split; try done; intros; congruence.
Qed.

Lemma traefik_stage_gets_the_certEmail_witness :
  (EvRunStage {| client_host := "192.168.1.1"; client_user := "sidekick" |}
     (TraefikStage "ops@example.com") None ∈ log Scenario.complete_run)
  ∧ "ops@example.com" ≠ EmptyString
  ∧ "ops@example.com" = GetString (viper (final Scenario.complete_run)) "certEmail"
  ∧ (GetString (viper Scenario.fresh) "certEmail" ≠ EmptyString →
     "ops@example.com" = GetString (viper Scenario.fresh) "certEmail")
  ∧ (GetString (viper Scenario.fresh) "certEmail" = EmptyString →
     "ops@example.com" = env_certEmailTextInput (Scenario.cooperative Scenario.age_output)).
Proof.
  assert (EvRunStage {| client_host := "192.168.1.1"; client_user := "sidekick" |}
            (TraefikStage "ops@example.com") None ∈ log Scenario.complete_run) as Hin
    by by_eval.
  split; [exact Hin|].
  exact (traefik_stage_gets_the_certEmail (Scenario.cooperative Scenario.age_output)
           Scenario.fresh _ _ _ Hin).
Defined.

(** X7. A run works on one host: every login, every stage and the command
    go to the address that the run keeps under [serverAddress]. *)
Theorem one_host_per_run (env : Env) (s : Store) (e : Event) (host : string) :
  e ∈ log (initCmd_Run env s) →
  host_of e = Some host →
  host = GetString (viper (final (initCmd_Run env s))) "serverAddress".
Proof.
  destruct s as [settings file].
  run_cases (initCmd_Run env {| viper := settings; configFile := file |}).
  all: intros Hin Hhost.
  all: match type of Hin with
       | _ ∈ ?l =>
           lazymatch l with
           | context [EvLogin ?x _ _] =>
               assert (Forall (fun e => match host_of e with
                                        | Some h => h = x
                                        | None => True
                                        end) l) as Hall
                 by (repeat (apply Forall_cons; split; [first [exact I | reflexivity] |]);
                     apply Forall_nil_2)
           | _ =>
               assert (Forall (fun e => match host_of e with
                                        | Some h => False
                                        | None => True
                                        end) l) as Hall
                 by (repeat (apply Forall_cons; split; [exact I |]); apply Forall_nil_2)
           end;
           rewrite Forall_forall in Hall; specialize (Hall _ Hin); rewrite Hhost in Hall
       end.
  all: try done; subst host.
  all: unfold GetString;
    repeat (rewrite lookup_insert_eq || rewrite lookup_insert_ne by done); done.
Qed.

Lemma one_host_per_run_witness :
  (EvLogin "192.168.1.1" "sidekick" None ∈ log Scenario.complete_run)
  ∧ host_of (EvLogin "192.168.1.1" "sidekick" None) = Some "192.168.1.1"
  ∧ "192.168.1.1" = GetString (viper (final Scenario.complete_run)) "serverAddress".
Proof.
  assert (EvLogin "192.168.1.1" "sidekick" None ∈ log Scenario.complete_run) as Hin
    by by_eval.
  split; [exact Hin|]. split; [reflexivity|].
  exact (one_host_per_run (Scenario.cooperative Scenario.age_output) Scenario.fresh
           _ _ Hin eq_refl).
Defined.

(** X8. The stage that creates the user is executed as [root]; the base
    setup, the key generation, the Docker stage and the Traefik stage are
    executed as [sidekick]. *)
Theorem stages_run_under_their_account (env : Env) (s : Store) :
  Forall runs_under_its_account (log (initCmd_Run env s)).
Proof.
  run_cases (initCmd_Run env s).
  all: by_eval.
Qed.

(** X9. No phase is tried twice: a run logs in once as [root] and once as
    [sidekick], runs each stage and the command once, and writes the
    configuration once, at most. *)
Theorem no_phase_is_repeated (env : Env) (s : Store) :
  NoDup (omap (fun e => fst <$> phase_of e) (log (initCmd_Run env s))).
Proof.
  run_cases (initCmd_Run env s).
  all: by_eval.
Qed.

(** X10. The spinners tell the truth: a spinner reports success only after
    the phase it stands for has succeeded, and a spinner reports a failure
    only after a phase has failed. *)
Theorem spinners_report_what_happened (env : Env) (s : Store) (sp : Spinner) :
  preceded (succeeded (spinner_phase sp)) (reports_success sp) (log (initCmd_Run env s))
  ∧ preceded failed reports_failure (log (initCmd_Run env s)).
Proof.
  run_cases (initCmd_Run env s).
  all: split; [destruct sp|]; refine (preceded_decide _ _ _ _); vm_compute; reflexivity.
Qed.

(** The slice and index expressions return or panic; they never end the
    process with a status of their own. *)
Lemma slice_never_exits {A} (a : list A) low high code : slice a low high ≠ Exits code.
Proof. unfold slice. by repeat case_decide. Qed.

Lemma index_never_exits {A} (a : list A) i code : index a i ≠ Exits code.
Proof. unfold index. by destruct (a !! i). Qed.

(** X11. A run returns exactly when its final write of the configuration
    has succeeded, and exactly then it announces that the VPS is ready;
    the configuration file then holds the settings of the run, and in every
    other run [initCmd] leaves the file as it found it. *)
Theorem run_returns_exactly_when_written (env : Env) (s : Store) :
  (outcome (initCmd_Run env s) = Returns tt ↔ EvWriteConfig None ∈ log (initCmd_Run env s))
  ∧ (EvInfo readyMessage ∈ log (initCmd_Run env s)
     ↔ EvWriteConfig None ∈ log (initCmd_Run env s))
  ∧ (EvWriteConfig None ∈ log (initCmd_Run env s) →
     configFile (final (initCmd_Run env s)) = Some (viper (final (initCmd_Run env s))))
  ∧ (EvWriteConfig None ∉ log (initCmd_Run env s) →
     configFile (final (initCmd_Run env s)) = configFile s).
Proof.
  destruct s as [settings file].
  run_cases (initCmd_Run env {| viper := settings; configFile := file |}).
  all: repeat split; intros Hyp; first [ done | in_log | eval_hyp Hyp ]; done.
Qed.

(** X12. The exit status of a run is 0, 1 or 2, and it is 1 exactly when
    the login as [root] has been rejected. *)
Theorem status_one_means_bootstrap_rejected (env : Env) (s : Store) :
  (exit_status (outcome (initCmd_Run env s)) = 1%Z
   ↔ Exists bootstrap_rejected (log (initCmd_Run env s)))
  ∧ (exit_status (outcome (initCmd_Run env s)) = 0%Z
     ∨ exit_status (outcome (initCmd_Run env s)) = 1%Z
     ∨ exit_status (outcome (initCmd_Run env s)) = 2%Z).
Proof.
  run_cases (initCmd_Run env s).
  all: try (exfalso;
            match goal with
            | H : slice _ _ _ = Exits _ |- _ => exact (slice_never_exits _ _ _ _ H)
            | H : index _ _ = Exits _ |- _ => exact (index_never_exits _ _ _ H)
            end).
  all: cbn [exit_status].
  all: split; [split; intros Hyp; first [ done | by_eval | eval_hyp Hyp ]; done |].
  all: auto.
Qed.

(** X13. With address and email given beforehand the operator is asked
    nothing, the run uses and keeps the two values, and its exit status
    says whether it has completed: it is 0 exactly when the run announces
    that the VPS is ready. *)
Theorem unattended_run_has_a_truthful_status (env : Env) (s : Store) :
  GetString (viper s) "serverAddress" ≠ EmptyString →
  GetString (viper s) "certEmail" ≠ EmptyString →
  Forall (fun e => ¬ is_prompt e) (log (initCmd_Run env s))
  ∧ (exit_status (outcome (initCmd_Run env s)) = 0%Z
     ↔ EvInfo readyMessage ∈ log (initCmd_Run env s))
  ∧ GetString (viper (final (initCmd_Run env s))) "serverAddress"
    = GetString (viper s) "serverAddress"
  ∧ GetString (viper (final (initCmd_Run env s))) "certEmail"
    = GetString (viper s) "certEmail".
Proof.
  destruct s as [settings file].
  run_cases (initCmd_Run env {| viper := settings; configFile := file |}).
  all: intros Hserver Hemail; try done.
  all: try (exfalso;
            match goal with
            | H : slice _ _ _ = Exits _ |- _ => exact (slice_never_exits _ _ _ _ H)
            | H : index _ _ = Exits _ |- _ => exact (index_never_exits _ _ _ H)
            end).
  all: cbn [exit_status].
  all: split; [by_eval|].
  all: split; [split; intros Hyp; first [ done | in_log | eval_hyp Hyp ]; done |].
  all: split; unfold GetString at 1;
    repeat (rewrite lookup_insert_eq || rewrite lookup_insert_ne by done); done.
Qed.

Lemma unattended_run_has_a_truthful_status_witness :
  GetString (viper MoreScenarios.given_both) "serverAddress" ≠ EmptyString
  ∧ GetString (viper MoreScenarios.given_both) "certEmail" ≠ EmptyString
  ∧ Forall (fun e => ¬ is_prompt e) (log MoreScenarios.unattended_run)
  ∧ (exit_status (outcome MoreScenarios.unattended_run) = 0%Z
     ↔ EvInfo readyMessage ∈ log MoreScenarios.unattended_run)
  ∧ GetString (viper (final MoreScenarios.unattended_run)) "serverAddress"
    = GetString (viper MoreScenarios.given_both) "serverAddress"
  ∧ GetString (viper (final MoreScenarios.unattended_run)) "certEmail"
    = GetString (viper MoreScenarios.given_both) "certEmail".
Proof.
  assert (GetString (viper MoreScenarios.given_both) "serverAddress" ≠ EmptyString) as Hs
    by (vm_compute; discriminate).
  assert (GetString (viper MoreScenarios.given_both) "certEmail" ≠ EmptyString) as He
    by (vm_compute; discriminate).
  split; [exact Hs|]. split; [exact He|].
  exact (unattended_run_has_a_truthful_status
           (Scenario.cooperative Scenario.age_output) MoreScenarios.given_both Hs He).
Defined.


